(** * sprinkler_check.py: precipitation, pressure and notification logic

    A shallow embedding of [src/sprinkler_check.py].

    Conventions of the embedding.
    - An aware [datetime] is its UTC instant in microseconds since the epoch
      (the resolution of Python's datetime) together with its UTC offset;
      comparisons and differences of aware datetimes use the instant only,
      [date()] uses the offset.
    - [datetime.now()] is an argument of every function that calls it, one
      argument per call site.
    - JSON and TOML numbers are exact rationals ([Q]); [round(x, n)] is
      rounding of the rational to [n] decimals, ties to even.
    - The HTTP and SMTP exchanges are arguments: what the server answered,
      or the exception the transport raised. *)

From Stdlib Require Import ZArith QArith Qround Qabs String Lia.
From stdpp Require Import base option list gmap strings sorting.

Local Open Scope Z_scope.

(** ** Exceptions *)

Inductive exn : Type :=
  | RequestException (e : string)
  | FileNotFoundError (msg : string)
  | KeyError (key : string)
  | TypeError (msg : string)
  | Exception (msg : string).

(** [str(e)] as used in the f-strings of the handlers. *)
Definition exn_str (e : exn) : string :=
  match e with
  | RequestException s | FileNotFoundError s | TypeError s | Exception s => s
  | KeyError k => "'" ++ k ++ "'"
  end.

Definition result (A : Type) : Type := exn + A.

Definition raise {A} (e : exn) : result A := inl e.
Definition ret {A} (a : A) : result A := inr a.
Definition bind {A B} (m : result A) (k : A -> result B) : result B :=
  match m with
  | inl e => inl e
  | inr a => k a
  end.

Notation "'let*' x ':=' m 'in' k" := (bind m (fun x => k))
  (at level 10, x name, m at level 100, k at level 200, only parsing).

(** ** Time *)

Definition us_per_second : Z := 1000000.
Definition us_per_hour : Z := 3600 * us_per_second.
Definition us_per_day : Z := 24 * us_per_hour.

(** [timedelta(hours=h)] and [timedelta(days=d)] in microseconds. *)
Definition timedelta_hours (h : Z) : Z := h * us_per_hour.
Definition timedelta_days (d : Z) : Z := d * us_per_day.

Record datetime : Type := {
  utc_us : Z;        (* the instant *)
  utcoffset_us : Z   (* tzinfo.utcoffset *)
}.

(** [dt.date()]: the calendar day of the wall clock, as a day number. *)
Definition date (dt : datetime) : Z := (utc_us dt + utcoffset_us dt) / us_per_day.

(** ** Numbers *)

(** Nearest integer, ties to the even one. *)
Definition round_half_even (x : Q) : Z :=
  let f := Qfloor x in
  match ((x - inject_Z f) ?= (1 # 2))%Q with
  | Lt => f
  | Gt => f + 1
  | Eq => if Z.even f then f else f + 1
  end.

(** [round(x, ndigits)]. *)
Definition round (x : Q) (ndigits : nat) : Q :=
  let scale := inject_Z (10 ^ Z.of_nat ndigits) in
  (inject_Z (round_half_even (x * scale)) / scale)%Q.

(** Truth value of a number: [if x] is [x != 0]. *)
Definition truthy (x : Q) : bool := negb (Qeq_bool x 0).

(** Truth value of [x] where [x] is a number or [None]. *)
Definition truthy_opt (x : option Q) : bool :=
  match x with
  | Some v => truthy v
  | None => false
  end.

(** ** Observations *)

(** A quantity field of an observation's properties: the key is missing or
    holds null ([NoQuantity], what [.get(key, {})] turns into a false value),
    or it holds an object whose ['value'] is a number or null. *)
Inductive Quantity : Type :=
  | NoQuantity
  | QuantityObj (value : option Q).

(** [q and q.get('value') is not None], giving [q['value']]. *)
Definition present_value (q : Quantity) : option Q :=
  match q with
  | NoQuantity => None
  | QuantityObj v => v
  end.

(** An observation whose ['timestamp'] parses to an aware datetime. *)
Record Observation : Type := {
  timestamp : datetime;
  precipitationLastHour : Quantity;
  barometricPressure : Quantity
}.

(** ** get_precipitation_data *)

(** The local variables of the loop. *)
Record PrecipState : Type := {
  total_precip_mm : Q;
  observation_count : Z;
  latest_observation : option datetime;
  daily_totals : gmap Z Q
}.

Definition precip_init : PrecipState :=
  {| total_precip_mm := 0; observation_count := 0;
     latest_observation := None; daily_totals := ∅ |}.

(** The body of the loop after the horizon test, for one observation. *)
Definition precip_step (cutoff_time : Z) (obs : Observation) (st : PrecipState)
  : PrecipState :=
  let obs_time := timestamp obs in
  let latest :=
    match latest_observation st with
    | None => Some obs_time
    | Some t => Some t
    end in
  match present_value (precipitationLastHour obs) with
  | Some precip_mm =>
      let in_window := cutoff_time <=? utc_us obs_time in
      let obs_date := date obs_time in
      let daily :=
        match daily_totals st !! obs_date with
        | None => <[obs_date := 0%Q]> (daily_totals st)
        | Some _ => daily_totals st
        end in
      {| total_precip_mm :=
           if in_window then (total_precip_mm st + precip_mm)%Q
           else total_precip_mm st;
         observation_count :=
           if in_window then observation_count st + 1
           else observation_count st;
         latest_observation := latest;
         daily_totals := alter (fun mm => (mm + precip_mm)%Q) obs_date daily |}
  | None =>
      {| total_precip_mm := total_precip_mm st;
         observation_count := observation_count st;
         latest_observation := latest;
         daily_totals := daily_totals st |}
  end.

(** [for obs in observations: if obs_time < seven_days_ago: break; ...]. *)
Fixpoint precip_loop (cutoff_time seven_days_ago : Z)
    (observations : list Observation) (st : PrecipState) : PrecipState :=
  match observations with
  | [] => st
  | obs :: rest =>
      if utc_us (timestamp obs) <? seven_days_ago then st
      else precip_loop cutoff_time seven_days_ago rest
             (precip_step cutoff_time obs st)
  end.

Definition mm_per_inch : Q := 254 # 10.

(** Order of [sorted(daily_totals.items(), reverse=True)]; the keys of a
    dict are distinct, so the dates decide. *)
Definition date_desc (a b : Z * Q) : Prop := a.1 >= b.1.

Global Instance date_desc_dec : RelDecision date_desc.
Proof. intros a b. unfold date_desc. apply _. Defined.

Definition daily_totals_inches_of (daily : gmap Z Q) : list (Z * Q) :=
  (fun item => (item.1, round (item.2 / mm_per_inch) 2)) <$>
    merge_sort date_desc (map_to_list daily).

(** The returned dict; the fields are its keys. *)
Record PrecipitationSummary : Type := {
  ps_total_mm : Q;
  ps_total_inches : Q;
  ps_observation_count : Z;
  ps_latest_observation : option datetime;
  ps_station_id : string;
  ps_daily_totals : list (Z * Q)   (* date -> inches, newest date first *)
}.

(** [now_cutoff] and [now_horizon] are the two readings of the clock;
    [response] is the decoded ['features'] list or the transport's error. *)
Definition get_precipitation_data (now_cutoff now_horizon : Z)
    (response : result (list Observation)) (station_id : string) (hours : Z)
  : result PrecipitationSummary :=
  match response with
  | inl (RequestException e) =>
      raise (Exception ("Error fetching precipitation data: " ++ e))
  | inl e => raise e
  | inr observations =>
      let cutoff_time := now_cutoff - timedelta_hours hours in
      let seven_days_ago := now_horizon - timedelta_days 7 in
      let st := precip_loop cutoff_time seven_days_ago observations precip_init in
      let total_precip_inches := (total_precip_mm st / mm_per_inch)%Q in
      ret {| ps_total_mm := round (total_precip_mm st) 2;
             ps_total_inches := round total_precip_inches 2;
             ps_observation_count := observation_count st;
             ps_latest_observation := latest_observation st;
             ps_station_id := station_id;
             ps_daily_totals := daily_totals_inches_of (daily_totals st) |}
  end.

(** ** get_pressure_data *)

(** The local variables of the loop. [current_pressure] and [current_time]
    are assigned together, and so are [yesterday_pressure] and
    [yesterday_time]: each pair is one optional (pressure, time). *)
Record PressureState : Type := {
  current : option (Q * datetime);
  yesterday_pick : option (Q * datetime)
}.

Definition pressure_init : PressureState :=
  {| current := None; yesterday_pick := None |}.

(** [abs((t - yesterday.astimezone()).total_seconds())], in microseconds.
    Both datetimes are aware, so the difference is that of the instants;
    [total_seconds()] is this count divided by 10^6, and the loop only
    compares such values with 3600 and with each other. *)
Definition time_diff (yesterday : Z) (t : datetime) : Z :=
  Z.abs (utc_us t - yesterday).

Definition pressure_step (yesterday : Z) (obs : Observation)
    (st : PressureState) : PressureState :=
  let obs_time := timestamp obs in
  match present_value (barometricPressure obs) with
  | Some pressure_pa =>
      let pressure_hpa := (pressure_pa / 100)%Q in
      let cur :=
        match current st with
        | None => Some (pressure_hpa, obs_time)
        | Some c => Some c
        end in
      let yest :=
        if time_diff yesterday obs_time <? us_per_hour then
          match yesterday_pick st with
          | None => Some (pressure_hpa, obs_time)
          | Some (yesterday_pressure, yesterday_time) =>
              if time_diff yesterday obs_time <? time_diff yesterday yesterday_time
              then Some (pressure_hpa, obs_time)
              else Some (yesterday_pressure, yesterday_time)
          end
        else yesterday_pick st in
      {| current := cur; yesterday_pick := yest |}
  | None => st
  end.

Definition pressure_loop (yesterday : Z) (observations : list Observation)
    (st : PressureState) : PressureState :=
  foldl (fun st obs => pressure_step yesterday obs st) st observations.

(** The returned dict; the fields are its keys. *)
Record PressureSummary : Type := {
  current_pressure : option Q;
  yesterday_pressure : option Q;
  pressure_change : option Q;
  current_time : option datetime;
  yesterday_time : option datetime
}.

(** [round(x, 1) if x else None] for [x] a number or [None]. *)
Definition round1_if (x : option Q) : option Q :=
  match x with
  | Some v => if truthy v then Some (round v 1) else None
  | None => None
  end.

Definition get_pressure_data (now : Z) (response : result (list Observation))
    (station_id : string) : result PressureSummary :=
  match response with
  | inl (RequestException e) =>
      raise (Exception ("Error fetching pressure data: " ++ e))
  | inl e => raise e
  | inr observations =>
      let yesterday := now - timedelta_days 1 in
      let st := pressure_loop yesterday observations pressure_init in
      let current_pressure := fst <$> current st in
      let yesterday_pressure := fst <$> yesterday_pick st in
      let pressure_change :=
        if truthy_opt current_pressure && truthy_opt yesterday_pressure then
          match current_pressure, yesterday_pressure with
          | Some c, Some y => Some (c - y)%Q
          | _, _ => None
          end
        else None in
      ret {| current_pressure := round1_if current_pressure;
             yesterday_pressure := round1_if yesterday_pressure;
             pressure_change := round1_if pressure_change;
             current_time := snd <$> current st;
             yesterday_time := snd <$> yesterday_pick st |}
  end.

(** ** get_nws_observation_station and get_forecast *)

(** ['properties'] of the answer of the point lookup. *)
Record PointsData : Type := {
  observationStations : string;
  forecast : string
}.

(** [points] and [stations] are the answers to the two requests; a station
    feature is its ['stationIdentifier']. *)
Definition get_nws_observation_station (points : result PointsData)
    (stations : result (list string)) (lat lon : Q) : result string :=
  let wrap (e : exn) : result string :=
    match e with
    | RequestException s => raise (Exception ("Error fetching NWS station: " ++ s))
    | _ => raise e
    end in
  match points with
  | inl e => wrap e
  | inr data =>
      match stations with
      | inl e => wrap e
      | inr [] => raise (Exception "No observation stations found for this location")
      | inr (station_id :: _) => ret station_id
      end
  end.

(** A forecast period, with the keys the script reads. *)
Record Period : Type := {
  name : string;
  temperature : Z;
  temperatureUnit : string;
  windSpeed : string;
  windDirection : string;
  shortForecast : string;
  detailedForecast : string
}.

Record ForecastSummary : Type := {
  fc_name : string;
  fc_temperature : Z;
  fc_temperature_unit : string;
  fc_wind_speed : string;
  fc_wind_direction : string;
  fc_short_forecast : string;
  fc_detailed_forecast : string
}.

(** [None] is the function's "no forecast" value. *)
Definition get_forecast (points : result PointsData)
    (forecast_response : result (list Period)) (lat lon : Q)
  : result (option ForecastSummary) :=
  let wrap (e : exn) : result (option ForecastSummary) :=
    match e with
    | RequestException s => raise (Exception ("Error fetching forecast: " ++ s))
    | _ => raise e
    end in
  match points with
  | inl e => wrap e
  | inr data =>
      match forecast_response with
      | inl e => wrap e
      | inr [] => ret None
      | inr (today :: _) =>
          ret (Some {| fc_name := name today;
                       fc_temperature := temperature today;
                       fc_temperature_unit := temperatureUnit today;
                       fc_wind_speed := windSpeed today;
                       fc_wind_direction := windDirection today;
                       fc_short_forecast := shortForecast today;
                       fc_detailed_forecast := detailedForecast today |})
      end
  end.

(** ** send_email *)

(** A value of the [email] table of config.toml. *)
#[warnings="-register-all"]
Inductive value : Type :=
  | VStr (s : string)
  | VInt (n : Z)
  | VList (items : list value).

Record Message : Type := {
  msg_From : value;
  msg_To : string;
  msg_Subject : string;
  msg_body : string
}.

(** What a run does to the outside: console lines and messages handed to
    the SMTP server. *)
Inductive event : Type :=
  | Printed (text : string)
  | Sent (msg : Message).

(** The SMTP session: each call answers or raises. *)
Record Smtp : Type := {
  smtp_connect : value -> value -> result unit;
  smtp_starttls : result unit;
  smtp_login : value -> value -> result unit;
  smtp_send_message : Message -> result unit
}.

(** [d[key]]. *)
Definition getitem (d : gmap string value) (key : string) : result value :=
  match d !! key with
  | Some v => ret v
  | None => raise (KeyError key)
  end.

(** Lines 239-249: the recipients, before they are joined. *)
Definition to_emails_of (email_config : gmap string value) : result value :=
  match email_config !! "to_emails" with
  | Some (VStr s) => ret (VList [VStr s])
  | Some to_emails => ret to_emails
  | None =>
      match email_config !! "to_email" with
      | Some to_email => ret (VList [to_email])
      | None =>
          raise (Exception
            "No recipient email configured. Use 'to_emails' (list) or 'to_email' (string) in config")
      end
  end.

Fixpoint join_strs (sep : string) (items : list value) : result string :=
  match items with
  | [] => ret ""
  | [VStr s] => ret s
  | VStr s :: rest =>
      bind (join_strs sep rest) (fun r => ret (s ++ sep ++ r)%string)
  | _ :: _ => raise (TypeError "sequence item: expected str instance")
  end.

(** [', '.join(to_emails)]; a string is normalised away before this point,
    so only a list or a non-iterable scalar arrives. *)
Definition join_emails (to_emails : value) : result string :=
  match to_emails with
  | VList items => join_strs ", " items
  | VStr s => raise (TypeError "can only join an iterable")
  | VInt _ => raise (TypeError "can only join an iterable")
  end.

(** [len(to_emails)] once the join has succeeded. *)
Definition len_emails (to_emails : value) : Z :=
  match to_emails with
  | VList items => Z.of_nat (length items)
  | _ => 0
  end.

(** A computation with console and SMTP effects: the events it caused, in
    order, and its value or the exception that ended it. *)
Definition io (A : Type) : Type := list event * result A.

Definition io_raise {A} (e : exn) : io A := ([], inl e).
Definition io_lift {A} (r : result A) : io A := ([], r).
Definition print (text : string) : io unit := ([Printed text], inr tt).
Definition io_bind {A B} (m : io A) (k : A -> io B) : io B :=
  match m with
  | (tr, inl e) => (tr, inl e)
  | (tr, inr a) => let '(tr', r) := k a in (tr ++ tr', r)
  end.

Notation "'let!' x ':=' m 'in' k" := (io_bind m (fun x => k))
  (at level 10, x name, m at level 100, k at level 200, only parsing).
Notation "m ';;!' k" := (io_bind m (fun _ => k))
  (at level 100, k at level 200, right associativity, only parsing).

(** Number and date formatting of the f-strings, left abstract. *)
Class Format : Type := {
  str_num : Q -> string;            (* f"{x}" *)
  str_int : Z -> string;            (* f"{n}" *)
  fmt_2f : Q -> string;             (* f"{x:.2f}" *)
  fmt_1f : Q -> string;             (* f"{x:.1f}" *)
  fmt_signed_1f : Q -> string;      (* f"{x:+.1f}" *)
  strftime_day : Z -> string;       (* date.strftime('%Y-%m-%d (%a)') *)
  str_datetime : option datetime -> string;  (* f"{dt}", dt possibly None *)
  strftime_now : Z -> string;       (* now.strftime('%Y-%m-%d %H:%M:%S') *)
  upper : string -> string          (* str.upper *)
}.

Definition nl : string := String (Ascii.ascii_of_nat 10) "".

(** The body of the [try] of [send_email]: the session up to the handing
    over of the message. *)
Definition smtp_session (smtp : Smtp) (email_config : gmap string value)
    (msg : Message) : result unit :=
  let* host := getitem email_config "smtp_host" in
  let* port := getitem email_config "smtp_port" in
  let* _ := smtp_connect smtp host port in
  let* _ := smtp_starttls smtp in
  let* username := getitem email_config "smtp_username" in
  let* password := getitem email_config "smtp_password" in
  let* _ := smtp_login smtp username password in
  smtp_send_message smtp msg.

Section Script.
Context `{Format}.

(** [email_config] is [config['email']]. *)
Definition send_email (smtp : Smtp) (email_config : gmap string value)
    (subject body : string) : io unit :=
  let! to_emails := io_lift (to_emails_of email_config) in
  let! from_email := io_lift (getitem email_config "from_email") in
  let! to := io_lift (join_emails to_emails) in
  let msg := {| msg_From := from_email; msg_To := to;
                msg_Subject := subject; msg_body := body |} in
  match smtp_session smtp email_config msg with
  | inr _ =>
      ([Sent msg;
        Printed ("Email sent successfully to " ++ str_int (len_emails to_emails)
                 ++ " recipient(s): " ++ to)], inr tt)
  | inl e => io_raise (Exception ("Error sending email: " ++ exn_str e))
  end.

(** *** Configuration and the outside world *)

Record Location : Type := { latitude : Q; longitude : Q }.

Record Sprinkler : Type := {
  hours_to_check : Z;
  threshold : Q;
  pressure_change_threshold : option Q   (* optional key *)
}.

Record Config : Type := {
  location : Location;
  sprinkler : Sprinkler;
  email : gmap string value
}.

(** Everything a run reads from outside: the configuration file (the same
    at both reads), the answer to each request in the order of the script,
    the clock at each reading, and the SMTP server. *)
Record World : Type := {
  load_config : result Config;
  points_station : result PointsData;
  stations : result (list string);
  precip_observations : result (list Observation);
  pressure_observations : result (list Observation);
  points_forecast : result PointsData;
  forecast_periods : result (list Period);
  now_cutoff : Z;
  now_horizon : Z;
  now_pressure : Z;
  now_report : Z;
  smtp : Smtp
}.

(** *** The pieces of main *)

(** Lines 301-307: (recommendation, emoji). *)
Definition recommendation_of (total_precip threshold : Q) : string * string :=
  if Qle_bool threshold total_precip
  then ("NO - Sufficient rainfall", "✓")
  else ("YES - Run sprinkler", "✗").

(** [x < y] on numbers. *)
Definition Qlt_bool (x y : Q) : bool :=
  match (x ?= y)%Q with
  | Lt => true
  | _ => false
  end.

(** Line 318: [sprinkler.get('pressure_change_threshold', 6)]. *)
Definition pressure_threshold_of (sp : Sprinkler) : Q :=
  default 6%Q (pressure_change_threshold sp).

(** Lines 322-333: (significance, trend). *)
Definition pressure_marks (change pressure_threshold : Q) : string * string :=
  let abs_change := Qabs change in
  if Qle_bool pressure_threshold abs_change && Qlt_bool change 0
  then ("SIGNIFICANT", "falling")
  else ("normal", if Qlt_bool 0 change then "rising" else "falling slightly").

(** [f"{x:.1f}"] where [x] may be [None]. *)
Definition fmt_1f_opt (x : option Q) : result string :=
  match x with
  | Some v => ret (fmt_1f v)
  | None => raise (TypeError "unsupported format string passed to NoneType.__format__")
  end.

(** Lines 320-341. *)
Definition pressure_text_of (pressure_data : PressureSummary)
    (pressure_threshold : Q) : result string :=
  match truthy_opt (current_pressure pressure_data),
        pressure_change pressure_data with
  | true, Some change =>
      let '(significance, trend) := pressure_marks change pressure_threshold in
      let* cur := fmt_1f_opt (current_pressure pressure_data) in
      let* yest := fmt_1f_opt (yesterday_pressure pressure_data) in
      ret ("  Current: " ++ cur ++ " hPa" ++ nl ++
           "  24h ago: " ++ yest ++ " hPa" ++ nl ++
           "  Change: " ++ fmt_signed_1f change ++ " hPa (" ++ significance
             ++ " - " ++ trend ++ ")" ++ nl ++
           "  Migraines are commonly triggered with pressures <1007 hPa or changes >6 hPa."
             ++ nl ++ "  ")%string
  | _, _ => ret "  Data unavailable"
  end.

(** Lines 344-352. *)
Definition forecast_text_of (forecast : option ForecastSummary) : string :=
  match forecast with
  | Some f =>
      upper (fc_name f) ++ ":" ++ nl ++
      "  Temperature: " ++ str_int (fc_temperature f) ++ "°"
        ++ fc_temperature_unit f ++ nl ++
      "  Wind: " ++ fc_wind_speed f ++ " " ++ fc_wind_direction f ++ nl ++
      "  Conditions: " ++ fc_short_forecast f ++ nl ++
      nl ++
      "  " ++ fc_detailed_forecast f
  | None => "  Forecast unavailable"
  end.

(** Lines 310-314. *)
Definition daily_totals_text_of (daily : list (Z * Q)) : string :=
  let daily_summary :=
    (fun item => "  " ++ strftime_day item.1 ++ ": " ++ fmt_2f item.2 ++ " inches")%string
      <$> daily in
  match daily_summary with
  | [] => "  No data available"
  | _ => String.concat nl daily_summary
  end.

Definition rule : string := "==================================================".

(** Lines 355-384. *)
Definition email_body_of (cfg : Config) (station_id : string)
    (precip_data : PrecipitationSummary) (recommendation emoji : string)
    (pressure_text forecast_text daily_totals_text : string) (now : Z) : string :=
  String.concat nl [
    "Overnight Precipitation Report";
    rule;
    "";
    "Time Period: Last " ++ str_int (hours_to_check (sprinkler cfg)) ++ " hours";
    "Location: " ++ str_num (latitude (location cfg)) ++ ", "
      ++ str_num (longitude (location cfg));
    "Weather Station: " ++ station_id;
    "";
    "PRECIPITATION TOTAL:";
    "  " ++ fmt_2f (ps_total_inches precip_data) ++ " inches ("
      ++ fmt_2f (ps_total_mm precip_data) ++ " mm)";
    "";
    "RUN SPRINKLER TODAY?";
    "  " ++ emoji ++ " " ++ recommendation;
    "";
    "BAROMETRIC PRESSURE (24-hour change):";
    pressure_text;
    "";
    "FORECAST:";
    forecast_text;
    "";
    "LAST 7 DAYS (Daily Totals):";
    daily_totals_text;
    "";
    "Details:";
    "  - Threshold: " ++ str_num (threshold (sprinkler cfg)) ++ " inches";
    "  - Hours of precipitation: " ++ str_int (ps_observation_count precip_data);
    "  - Latest observation: " ++ str_datetime (ps_latest_observation precip_data);
    "";
    rule;
    "Generated at: " ++ strftime_now now;
    ""
  ]%string.

(** The [try] block of [main]. *)
Definition main_try (w : World) : io unit :=
  let! config := io_lift (load_config w) in
  let lat := latitude (location config) in
  let lon := longitude (location config) in
  let hours := hours_to_check (sprinkler config) in
  let! _ := print ("Checking precipitation for last " ++ str_int hours ++ " hours...") in
  let! _ := print ("Location: " ++ str_num lat ++ ", " ++ str_num lon) in
  let! station_id :=
    io_lift (get_nws_observation_station (points_station w) (stations w) lat lon) in
  let! _ := print ("Using NWS station: " ++ station_id) in
  let! precip_data :=
    io_lift (get_precipitation_data (now_cutoff w) (now_horizon w)
               (precip_observations w) station_id hours) in
  let! _ := print "Fetching barometric pressure data..." in
  let! pressure_data :=
    io_lift (get_pressure_data (now_pressure w) (pressure_observations w) station_id) in
  let! _ := print "Fetching forecast..." in
  let! forecast :=
    io_lift (get_forecast (points_forecast w) (forecast_periods w) lat lon) in
  let '(recommendation, emoji) :=
    recommendation_of (ps_total_inches precip_data) (threshold (sprinkler config)) in
  let daily_totals_text := daily_totals_text_of (ps_daily_totals precip_data) in
  let! pressure_text :=
    io_lift (pressure_text_of pressure_data (pressure_threshold_of (sprinkler config))) in
  let forecast_text := forecast_text_of forecast in
  let email_body :=
    email_body_of config station_id precip_data recommendation emoji
      pressure_text forecast_text daily_totals_text (now_report w) in
  let! _ := print (nl ++ email_body) in
  let! _ := send_email (smtp w) (email config) "Weather update!" email_body in
  print (nl ++ "Script completed successfully!").

(** The [except] block: report the error, try once to mail it. *)
Definition main_except (w : World) (e : exn) : list event :=
  let error_msg := ("Error: " ++ exn_str e)%string in
  let attempt :=
    let! config := io_lift (load_config w) in
    send_email (smtp w) (email config) "Weather update - ERROR" error_msg in
  Printed error_msg ::
    match attempt with
    | (tr, inr _) => tr
    | (tr, inl _) => tr ++ [Printed "Failed to send error notification email"]
    end.

(** The events of the run and the exit status. *)
Definition main (w : World) : list event * Z :=
  match main_try w with
  | (tr, inr _) => (tr, 0)
  | (tr, inl e) => (tr ++ main_except w e, 1)
  end.

End Script.

(** ** Reference notions for the statements *)

(** The observations the precipitation loop reads before its [break]: the
    prefix up to the first one older than the horizon. *)
Fixpoint consumed (seven_days_ago : Z) (observations : list Observation)
  : list Observation :=
  match observations with
  | [] => []
  | obs :: rest =>
      if utc_us (timestamp obs) <? seven_days_ago then []
      else obs :: consumed seven_days_ago rest
  end.

Definition precip_of (obs : Observation) : option Q :=
  present_value (precipitationLastHour obs).

Definition pressure_of (obs : Observation) : option Q :=
  present_value (barometricPressure obs).

(** Sum of the precipitation values of a list of observations. *)
Definition sum_precip (l : list Observation) : Q :=
  foldr (fun obs acc => (default 0 (precip_of obs) + acc)%Q) 0%Q l.

(** Carries a precipitation value and is not older than the cutoff. *)
Definition in_window (cutoff_time : Z) (obs : Observation) : bool :=
  bool_decide (is_Some (precip_of obs)) && (cutoff_time <=? utc_us (timestamp obs)).

(** Carries a precipitation value and has calendar date [d]. *)
Definition on_day (d : Z) (obs : Observation) : bool :=
  bool_decide (is_Some (precip_of obs)) && (date (timestamp obs) =? d).

(** The millimetres recorded for a date, 0 when the date has no key. *)
Definition bucket (daily : gmap Z Q) (d : Z) : Q := default 0%Q (daily !! d).

Definition sum_values (items : list (Z * Q)) : Q :=
  foldr (fun item acc => (item.2 + acc)%Q) 0%Q items.

(** Millimetres over all dates of the dict. *)
Definition sum_buckets (daily : gmap Z Q) : Q := sum_values (map_to_list daily).

(** Observations whose precipitation value, when present, is not negative. *)
Definition nonneg_precip (l : list Observation) : Prop :=
  Forall (fun o => ∀ v, precip_of o = Some v → (0 <= v)%Q) l.

(** Carries a pressure value and lies less than one hour from [yesterday]. *)
Definition is_candidate (yesterday : Z) (o : Observation) : Prop :=
  is_Some (pressure_of o) ∧ time_diff yesterday (timestamp o) < us_per_hour.

(** [sub in s]. *)
Definition contains (s sub : string) : Prop :=
  ∃ pre post, s = (pre ++ sub ++ post)%string.

(** The configuration names one recipient as a string: as the value of
    [to_emails], or under the legacy key when [to_emails] is missing. *)
Definition single_recipient (email_config : gmap string value) (s : string) : Prop :=
  email_config !! "to_emails" = Some (VStr s)
  ∨ (email_config !! "to_emails" = None ∧ email_config !! "to_email" = Some (VStr s)).

(** Two loop states that agree on everything but [latest_observation]. *)
Definition same_totals (st1 st2 : PrecipState) : Prop :=
  total_precip_mm st1 = total_precip_mm st2
  ∧ observation_count st1 = observation_count st2
  ∧ daily_totals st1 = daily_totals st2.

(** The hectopascal reading and the time of the first observation of the
    list that carries a pressure value. *)
Definition first_reading (l : list Observation) : option (Q * datetime) :=
  head (omap (fun o => (fun pa => ((pa / 100)%Q, timestamp o)) <$> pressure_of o) l).

(** The messages handed to the SMTP server in a list of events. *)
Definition sent_messages (tr : list event) : list Message :=
  omap (fun ev => match ev with Sent msg => Some msg | Printed _ => None end) tr.



(** ** Example inputs *)

(** An observation at instant [t] (UTC, offset 0) with the given values. *)
Definition obs_at (t : Z) (precip pressure : option Q) : Observation :=
  {| timestamp := {| utc_us := t; utcoffset_us := 0 |};
     precipitationLastHour :=
       match precip with Some v => QuantityObj (Some v) | None => NoQuantity end;
     barometricPressure :=
       match pressure with Some v => QuantityObj (Some v) | None => NoQuantity end |}.

(** Run time of the examples: day 20000 of the epoch, 06:00 UTC. *)
Definition run_time : Z := 20000 * us_per_day + 6 * us_per_hour.

(** Rain one hour and eight hours before run time (the second on the
    previous date), more rain 30 hours before, and a reading of 8 days ago. *)
Definition overnight_rain : list Observation :=
  [ obs_at (run_time - 1 * us_per_hour) (Some (254 # 100)) None;
    obs_at (run_time - 8 * us_per_hour) (Some (254 # 100)) None;
    obs_at (run_time - 30 * us_per_hour) (Some (127 # 100)) None;
    obs_at (run_time - 8 * us_per_day) (Some (127 # 100)) None ].

(** A negative value outside the window, on the date of a reading inside. *)
Definition negative_reading : list Observation :=
  [ obs_at (run_time - 1 * us_per_hour) (Some (5 # 1)) None;
    obs_at (run_time - 5 * us_per_hour) (Some (-3 # 1)) None ].


(** Readings 1 h, 23.5 h, 24.3 h and 25 h before run time. *)
Definition pressure_23_5_and_24_3 : list Observation :=
  [ obs_at (run_time - 1 * us_per_hour) None (Some 101325%Q);
    obs_at (run_time - 23 * us_per_hour - 1800 * us_per_second) None (Some 101000%Q);
    obs_at (run_time - 24 * us_per_hour - 1080 * us_per_second) None (Some 100000%Q);
    obs_at (run_time - 25 * us_per_hour) None (Some 99000%Q) ].


(** The same pressure now and exactly 24 hours ago. *)
Definition steady_pressure : list Observation :=
  [ obs_at (run_time - 600 * us_per_second) None (Some 101325%Q);
    obs_at (run_time - 24 * us_per_hour) None (Some 101325%Q) ].

(** A formatter for the examples: numbers and dates print as "#". *)
Definition plain_format : Format :=
  {| str_num := fun _ => "#"; str_int := fun _ => "#";
     fmt_2f := fun _ => "#"; fmt_1f := fun _ => "#";
     fmt_signed_1f := fun _ => "#"; strftime_day := fun _ => "#";
     str_datetime := fun _ => "#"; strftime_now := fun _ => "#";
     upper := fun s => s |}.

(** An SMTP server that accepts everything. *)
Definition accepting_smtp : Smtp :=
  {| smtp_connect := fun _ _ => inr tt;
     smtp_starttls := inr tt;
     smtp_login := fun _ _ => inr tt;
     smtp_send_message := fun _ => inr tt |}.

Definition example_email : gmap string value :=
  <["from_email" := VStr "weather@example.org"]>
  (<["to_emails" := VList [VStr "a@example.org"; VStr "b@example.org"]]>
  (<["smtp_host" := VStr "smtp.example.org"]>
  (<["smtp_port" := VInt 587]>
  (<["smtp_username" := VStr "weather"]>
  (<["smtp_password" := VStr "secret"]> ∅))))).

Definition legacy_email : gmap string value :=
  <["to_email" := VStr "a@example.org"]> (delete "to_emails" example_email).


Definition example_config : Config :=
  {| location := {| latitude := 4491 # 100; longitude := -(9326 # 100) |};
     sprinkler := {| hours_to_check := 12; threshold := 1 # 10;
                     pressure_change_threshold := None |};
     email := example_email |}.

Definition example_points : PointsData :=
  {| observationStations := "https://api.weather.gov/gridpoints/MPX/1,1/stations";
     forecast := "https://api.weather.gov/gridpoints/MPX/1,1/forecast" |}.

(** A world in which every request is answered, the station has the
    overnight rain, and the forecast has no period. *)
Definition world_without_periods : World :=
  {| load_config := inr example_config;
     points_station := inr example_points;
     stations := inr ["KXYZ"; "KABC"];
     precip_observations := inr overnight_rain;
     pressure_observations := inr pressure_23_5_and_24_3;
     points_forecast := inr example_points;
     forecast_periods := inr [];
     now_cutoff := run_time;
     now_horizon := run_time;
     now_pressure := run_time;
     now_report := run_time;
     smtp := accepting_smtp |}.


(** A configuration without sender, and one without SMTP host. *)
Definition no_sender_email : gmap string value := delete "from_email" example_email.

Definition no_host_email : gmap string value := delete "smtp_host" example_email.

(** The world of [world_without_periods] with the configuration file
    missing, and with the point lookup of the station timing out. *)
Definition world_without_config : World :=
  {| load_config := inl (FileNotFoundError "Configuration file not found");
     points_station := inr example_points;
     stations := inr ["KXYZ"; "KABC"];
     precip_observations := inr overnight_rain;
     pressure_observations := inr pressure_23_5_and_24_3;
     points_forecast := inr example_points;
     forecast_periods := inr [];
     now_cutoff := run_time;
     now_horizon := run_time;
     now_pressure := run_time;
     now_report := run_time;
     smtp := accepting_smtp |}.

Definition world_without_station : World :=
  {| load_config := inr example_config;
     points_station := inl (RequestException "timed out");
     stations := inr ["KXYZ"; "KABC"];
     precip_observations := inr overnight_rain;
     pressure_observations := inr pressure_23_5_and_24_3;
     points_forecast := inr example_points;
     forecast_periods := inr [];
     now_cutoff := run_time;
     now_horizon := run_time;
     now_pressure := run_time;
     now_report := run_time;
     smtp := accepting_smtp |}.



(** ** The precipitation loop *)

Lemma precip_loop_consumed cutoff seven obs st :
  precip_loop cutoff seven obs st =
  foldl (fun st o => precip_step cutoff o st) st (consumed seven obs).
Proof.
  revert st. induction obs as [|o rest IH]; intros st; simpl; [done|].
  destruct (utc_us (timestamp o) <? seven); simpl; auto.
Qed.





Lemma precip_step_daily cutoff o st d :
  daily_totals (precip_step cutoff o st) !! d =
  match precip_of o with
  | Some v =>
      if decide (date (timestamp o) = d)
      then Some (bucket (daily_totals st) d + v)%Q
      else daily_totals st !! d
  | None => daily_totals st !! d
  end.
Proof.
  unfold precip_step, precip_of, bucket.
  destruct (present_value (precipitationLastHour o)) as [v|]; simpl; [|done].
  destruct (decide (date (timestamp o) = d)) as [->|Hne].
  - rewrite lookup_alter_eq.
    destruct (daily_totals st !! d) as [mm|] eqn:E; simpl.
    + by rewrite E.
    + by rewrite lookup_insert_eq.
  - rewrite lookup_alter_ne by done.
    destruct (daily_totals st !! date (timestamp o)); [done|].
    by rewrite lookup_insert_ne.
Qed.

Lemma precip_step_total cutoff o st :
  (total_precip_mm (precip_step cutoff o st) ==
   total_precip_mm st + (if in_window cutoff o then default 0 (precip_of o) else 0))%Q.
Proof.
  unfold precip_step, in_window, precip_of.
  destruct (present_value (precipitationLastHour o)) as [v|]; simpl.
  - destruct (cutoff <=? utc_us (timestamp o)); simpl; ring.
  - ring.
Qed.

Lemma precip_step_count cutoff o st :
  observation_count (precip_step cutoff o st) =
  observation_count st + (if in_window cutoff o then 1 else 0).
Proof.
  unfold precip_step, in_window, precip_of.
  destruct (present_value (precipitationLastHour o)) as [v|]; simpl.
  - destruct (cutoff <=? utc_us (timestamp o)); simpl; lia.
  - lia.
Qed.

Lemma on_day_spec d o :
  on_day d o ↔ is_Some (precip_of o) ∧ date (timestamp o) = d.
Proof.
  unfold on_day. rewrite andb_True, bool_decide_spec.
  by rewrite Is_true_true, Z.eqb_eq.
Qed.

Lemma in_window_spec cutoff o :
  in_window cutoff o ↔ is_Some (precip_of o) ∧ cutoff <= utc_us (timestamp o).
Proof.
  unfold in_window. rewrite andb_True, bool_decide_spec.
  by rewrite Is_true_true, Z.leb_le.
Qed.

Section precip_fold.
Variable cutoff : Z.

Let run (st : PrecipState) (l : list Observation) : PrecipState :=
  foldl (fun st o => precip_step cutoff o st) st l.

Lemma fold_total l st :
  (total_precip_mm (run st l) ==
   total_precip_mm st + sum_precip (filter (in_window cutoff) l))%Q.
Proof.
  revert st. unfold run. induction l as [|o l IH]; intros st; cbn [foldl].
  - simpl. ring.
  - unfold run in *. rewrite IH, precip_step_total, filter_cons.
    destruct (in_window cutoff o) eqn:E.
    + rewrite decide_True by (by apply Is_true_true).
      unfold in_window in E. apply andb_prop in E as [E _].
      apply bool_decide_eq_true_1 in E as [v E].
      simpl. rewrite E. simpl. ring.
    + rewrite decide_False by (by apply Is_true_false). ring.
Qed.

Lemma fold_count l st :
  observation_count (run st l) =
  observation_count st + Z.of_nat (length (filter (in_window cutoff) l)).
Proof.
  revert st. unfold run. induction l as [|o l IH]; intros st; cbn [foldl].
  - simpl. lia.
  - unfold run in *. rewrite IH, precip_step_count, filter_cons.
    destruct (in_window cutoff o) eqn:E.
    + rewrite decide_True by (by apply Is_true_true). simpl. lia.
    + rewrite decide_False by (by apply Is_true_false). lia.
Qed.

Lemma fold_bucket d l st :
  (bucket (daily_totals (run st l)) d ==
   bucket (daily_totals st) d + sum_precip (filter (on_day d) l))%Q.
Proof.
  revert st. unfold run. induction l as [|o l IH]; intros st; cbn [foldl].
  - simpl. ring.
  - unfold run in *. rewrite IH, filter_cons.
    unfold bucket at 1. rewrite precip_step_daily.
    destruct (precip_of o) as [v|] eqn:E.
    + destruct (decide (date (timestamp o) = d)) as [Hd|Hd].
      * rewrite decide_True by (apply on_day_spec; rewrite E; eauto).
        simpl. rewrite E. simpl. ring.
      * rewrite decide_False by (by intros [_ ?]%on_day_spec).
        fold (bucket (daily_totals st) d). ring.
    + rewrite decide_False by (rewrite on_day_spec, E; by intros [[? ?] _]).
      fold (bucket (daily_totals st) d). ring.
Qed.


End precip_fold.

(** ** Rounding *)



(** ** Sums over the day buckets *)

Lemma sum_values_perm l1 l2 : l1 ≡ₚ l2 → (sum_values l1 == sum_values l2)%Q.
Proof.
  induction 1 as [|x l1 l2 _ IH|x y l|l1 l2 l3 _ IH1 _ IH2]; simpl.
  - reflexivity.
  - by rewrite IH.
  - ring.
  - by rewrite IH1.
Qed.

Lemma sum_buckets_insert_fresh (m : gmap Z Q) k x :
  m !! k = None → (sum_buckets (<[k:=x]> m) == x + sum_buckets m)%Q.
Proof.
  intros Hk. unfold sum_buckets.
  by rewrite (sum_values_perm _ _ (map_to_list_insert m k x Hk)).
Qed.

Lemma sum_buckets_step cutoff o st :
  (sum_buckets (daily_totals (precip_step cutoff o st)) ==
   sum_buckets (daily_totals st) + default 0 (precip_of o))%Q.
Proof.
  unfold precip_step, precip_of.
  destruct (present_value (precipitationLastHour o)) as [v|]; simpl; [|ring].
  set (k := date (timestamp o)).
  destruct (daily_totals st !! k) as [mm|] eqn:E.
  - rewrite <- (insert_delete_id (daily_totals st) k mm E) at 1.
    rewrite alter_insert_eq.
    rewrite sum_buckets_insert_fresh by apply lookup_delete_eq.
    rewrite <- (insert_delete_id (daily_totals st) k mm E) at 2.
    rewrite (sum_buckets_insert_fresh (delete k (daily_totals st)) k mm)
      by apply lookup_delete_eq.
    ring.
  - rewrite alter_insert_eq. rewrite sum_buckets_insert_fresh by done. ring.
Qed.

Lemma sum_buckets_fold cutoff l st :
  (sum_buckets (daily_totals (foldl (fun st o => precip_step cutoff o st) st l)) ==
   sum_buckets (daily_totals st) + sum_precip l)%Q.
Proof.
  revert st. induction l as [|o l IH]; intros st; cbn [foldl].
  - simpl. ring.
  - rewrite IH, sum_buckets_step. simpl. ring.
Qed.

Lemma sum_precip_sublist l1 l2 :
  l1 `sublist_of` l2 → nonneg_precip l2 → (sum_precip l1 <= sum_precip l2)%Q.
Proof.
  induction 1 as [|o l1 l2 _ IH|o l1 l2 _ IH]; intros Hnn; simpl.
  - apply Qle_refl.
  - apply Forall_cons in Hnn as [_ Hnn].
    apply Qplus_le_r. by apply IH.
  - apply Forall_cons in Hnn as [Ho Hnn].
    specialize (IH Hnn).
    assert (0 <= default 0 (precip_of o))%Q.
    { destruct (precip_of o) as [v|]; simpl; [by apply Ho|apply Qle_refl]. }
    rewrite <- (Qplus_0_l (sum_precip l1)).
    by apply Qplus_le_compat.
Qed.

Lemma nonneg_precip_sublist l1 l2 :
  l1 `sublist_of` l2 → nonneg_precip l2 → nonneg_precip l1.
Proof.
  intros Hsub Hnn. unfold nonneg_precip in *. rewrite Forall_forall in *.
  intros o Ho. apply Hnn. by eapply elem_of_sublist.
Qed.

Lemma daily_totals_inches_elem daily d v :
  (d, v) ∈ daily_totals_inches_of daily ↔
  ∃ mm, daily !! d = Some mm ∧ v = round (mm / mm_per_inch) 2.
Proof.
  unfold daily_totals_inches_of. rewrite list_elem_of_fmap. split.
  - intros ([d' mm] & [= -> ->] & Hin).
    rewrite merge_sort_Permutation in Hin.
    apply elem_of_map_to_list in Hin. eauto.
  - intros (mm & Hd & ->). exists (d, mm). split; [done|].
    rewrite merge_sort_Permutation. by apply elem_of_map_to_list.
Qed.

(** The returned daily totals are ordered newest date first. *)
Lemma daily_totals_inches_sorted daily :
  Sorted (fun a b => a.1 >= b.1) (daily_totals_inches_of daily).
Proof.
  unfold daily_totals_inches_of.
  apply (Sorted_fmap _ date_desc); [by intros [??] [??]|].
  apply Sorted_merge_sort. intros [a ?] [b ?]. unfold date_desc. simpl. lia.
Qed.

(** ** Precipitation: the daily keys (C7) *)

Lemma get_precipitation_data_ok now_cutoff now_horizon observations station_id hours :
  let cutoff_time := now_cutoff - timedelta_hours hours in
  let seven_days_ago := now_horizon - timedelta_days 7 in
  let st := precip_loop cutoff_time seven_days_ago observations precip_init in
  get_precipitation_data now_cutoff now_horizon (inr observations) station_id hours =
  inr {| ps_total_mm := round (total_precip_mm st) 2;
         ps_total_inches := round (total_precip_mm st / mm_per_inch) 2;
         ps_observation_count := observation_count st;
         ps_latest_observation := latest_observation st;
         ps_station_id := station_id;
         ps_daily_totals := daily_totals_inches_of (daily_totals st) |}.
Proof. reflexivity. Qed.




(** ** Precipitation: inches and millimetres (C5) *)

Lemma precip_loop_total cutoff seven obs :
  (total_precip_mm (precip_loop cutoff seven obs precip_init) ==
   sum_precip (filter (in_window cutoff) (consumed seven obs)))%Q.
Proof. rewrite precip_loop_consumed, fold_total. simpl. ring. Qed.

Lemma precip_loop_bucket cutoff seven obs d :
  (bucket (daily_totals (precip_loop cutoff seven obs precip_init)) d ==
   sum_precip (filter (on_day d) (consumed seven obs)))%Q.
Proof.
  rewrite precip_loop_consumed, fold_bucket.
  unfold bucket. simpl. rewrite lookup_empty. simpl. ring.
Qed.



(** ** Precipitation: the recent window and the day buckets (C6) *)


Lemma consumed_sublist seven obs : consumed seven obs `sublist_of` obs.
Proof.
  induction obs as [|o rest IH]; simpl; [done|].
  destruct (utc_us (timestamp o) <? seven).
  - apply sublist_nil_l.
  - by apply sublist_skip.
Qed.




(** The bound needs the values to be non-negative: with a 2-hour window,
    5 mm inside it and -3 mm earlier on the same date give a recent total
    of 5 mm against a bucket of 2 mm. *)
Lemma negative_value_breaks_bound :
  let st := precip_loop (run_time - timedelta_hours 2) (run_time - timedelta_days 7)
              negative_reading precip_init in
  (total_precip_mm st == 5)%Q ∧ (bucket (daily_totals st) 20000 == 2)%Q.
Proof. by vm_compute. Qed.

(** ** Pressure: the reading of 24 hours ago (C2) *)

Lemma pressure_step_pick yesterday o st :
  yesterday_pick (pressure_step yesterday o st) =
  match pressure_of o with
  | Some pa =>
      if time_diff yesterday (timestamp o) <? us_per_hour then
        match yesterday_pick st with
        | None => Some ((pa / 100)%Q, timestamp o)
        | Some (p0, t0) =>
            if time_diff yesterday (timestamp o) <? time_diff yesterday t0
            then Some ((pa / 100)%Q, timestamp o)
            else Some (p0, t0)
        end
      else yesterday_pick st
  | None => yesterday_pick st
  end.
Proof.
  unfold pressure_step, pressure_of.
  destruct (present_value (barometricPressure o)); [|done]. simpl.
  destruct (_ <? us_per_hour); [|done].
  by destruct (yesterday_pick st) as [[??]|].
Qed.

(** What the loop has picked after a list of observations: nothing when
    the list has no candidate, otherwise a candidate of the list that no
    candidate of the list beats. *)
Lemma pressure_loop_pick yesterday l :
  match yesterday_pick (pressure_loop yesterday l pressure_init) with
  | None => ∀ o, o ∈ l → ¬ is_candidate yesterday o
  | Some (p, t) =>
      (∃ o pa, o ∈ l ∧ pressure_of o = Some pa ∧ p = (pa / 100)%Q
               ∧ t = timestamp o ∧ time_diff yesterday t < us_per_hour)
      ∧ (∀ o, o ∈ l → is_candidate yesterday o →
           time_diff yesterday t <= time_diff yesterday (timestamp o))
  end.
Proof.
  unfold pressure_loop. induction l as [|o l IH] using rev_ind.
  - simpl. by intros o ?%elem_of_nil.
  - rewrite foldl_app. cbn [foldl]. rewrite pressure_step_pick.
    set (st := foldl _ pressure_init l) in *.
    destruct (pressure_of o) as [pa|] eqn:Ep.
    + destruct (Z.ltb_spec (time_diff yesterday (timestamp o)) us_per_hour) as [Hh|Hh].
      * destruct (yesterday_pick st) as [[p0 t0]|].
        -- destruct IH as [(o0 & pa0 & Hin & Hp0 & -> & -> & Hlt) Hmin].
           destruct (Z.ltb_spec (time_diff yesterday (timestamp o))
                       (time_diff yesterday (timestamp o0))) as [Hb|Hb].
           ++ split.
              ** exists o, pa. rewrite elem_of_app, list_elem_of_singleton. auto.
              ** intros o' [Hin'| ->%list_elem_of_singleton]%elem_of_app Hc; [|lia].
                 specialize (Hmin o' Hin' Hc). lia.
           ++ split.
              ** exists o0, pa0. rewrite elem_of_app. auto 10.
              ** intros o' [Hin'| ->%list_elem_of_singleton]%elem_of_app Hc; [|lia].
                 by apply Hmin.
        -- split.
           ++ exists o, pa. rewrite elem_of_app, list_elem_of_singleton. auto.
           ++ intros o' [Hin'| ->%list_elem_of_singleton]%elem_of_app Hc; [|lia].
              by destruct (IH o' Hin').
      * destruct (yesterday_pick st) as [[p0 t0]|].
        -- destruct IH as [(o0 & pa0 & Hin & Hp0 & -> & -> & Hlt) Hmin]. split.
           ++ exists o0, pa0. rewrite elem_of_app. auto 10.
           ++ intros o' [Hin'| ->%list_elem_of_singleton]%elem_of_app Hc;
                [by apply Hmin|]. destruct Hc as [_ Hc]. lia.
        -- intros o' [Hin'| ->%list_elem_of_singleton]%elem_of_app Hc;
             [by apply (IH o')|]. destruct Hc as [_ Hc]. lia.
    + destruct (yesterday_pick st) as [[p0 t0]|].
      * destruct IH as [(o0 & pa0 & Hin & Hp0 & -> & -> & Hlt) Hmin]. split.
        -- exists o0, pa0. rewrite elem_of_app. auto 10.
        -- intros o' [Hin'| ->%list_elem_of_singleton]%elem_of_app Hc;
             [by apply Hmin|]. destruct Hc as [[? Hc] _]. congruence.
      * intros o' [Hin'| ->%list_elem_of_singleton]%elem_of_app Hc;
          [by apply (IH o')|]. destruct Hc as [[? Hc] _]. congruence.
Qed.

Lemma get_pressure_data_ok now observations station_id :
  let st := pressure_loop (now - timedelta_days 1) observations pressure_init in
  let cur := fst <$> current st in
  let yest := fst <$> yesterday_pick st in
  get_pressure_data now (inr observations) station_id =
  inr {| current_pressure := round1_if cur;
         yesterday_pressure := round1_if yest;
         pressure_change :=
           round1_if
             (if truthy_opt cur && truthy_opt yest then
                match cur, yest with
                | Some c, Some y => Some (c - y)%Q
                | _, _ => None
                end
              else None);
         current_time := snd <$> current st;
         yesterday_time := snd <$> yesterday_pick st |}.
Proof. reflexivity. Qed.



(** ** Pressure: the 24-hour change (C1) *)

(** The change is computed from the unrounded readings, and is dropped
    when a reading or the change itself is zero. *)
Lemma pressure_change_formula now observations station_id :
  let st := pressure_loop (now - timedelta_days 1) observations pressure_init in
  ∃ r, get_pressure_data now (inr observations) station_id = inr r
    ∧ pressure_change r =
      match current st, yesterday_pick st with
      | Some (c, _), Some (y, _) =>
          if truthy c && truthy y && truthy (c - y)
          then Some (round (c - y) 1) else None
      | _, _ => None
      end.
Proof.
  intros st. eexists. split; [apply get_pressure_data_ok|].
  cbn [pressure_change]. fold st.
  destruct (current st) as [[c ?]|], (yesterday_pick st) as [[y ?]|]; simpl; try done.
  - by destruct (truthy c), (truthy y).
  - by destruct (truthy c).
Qed.

(** C1 at the failing input: both readings are present (1013.25 hPa each,
    returned as 1013.2), yet the returned change is absent instead of 0. *)
Lemma steady_pressure_change_absent :
  ∃ r, get_pressure_data run_time (inr steady_pressure) "KXYZ" = inr r
    ∧ current_pressure r = Some (round (101325 / 100) 1)
    ∧ yesterday_pressure r = Some (round (101325 / 100) 1)
    ∧ pressure_change r = None
    ∧ round (101325 / 100 - 101325 / 100) 1 = round 0 1.
Proof.
  eexists. split; [apply get_pressure_data_ok|]. by vm_compute.
Qed.

(** ** The report and the run *)

Lemma append_cons a (s t : string) : (String a s ++ t = String a (s ++ t))%string.
Proof. reflexivity. Qed.

Lemma append_nil_r (s : string) : (s ++ "" = s)%string.
Proof. induction s as [|a s IH]; [done|]. by rewrite append_cons, IH. Qed.

Lemma append_assoc (s t u : string) : ((s ++ t) ++ u = s ++ t ++ u)%string.
Proof. induction s as [|a s IH]; [done|]. by rewrite !append_cons, IH. Qed.

Lemma concat_contains sep (l : list string) x :
  x ∈ l → contains (String.concat sep l) x.
Proof.
  induction l as [|y l IH]; [by intros ?%elem_of_nil|].
  intros [->|Hin]%elem_of_cons.
  - destruct l as [|z l].
    + exists "", "". by rewrite append_nil_r.
    + exists "", (sep ++ String.concat sep (z :: l))%string. done.
  - destruct l as [|z l]; [by apply elem_of_nil in Hin|].
    destruct (IH Hin) as (pre & post & Heq).
    exists (y ++ sep ++ pre)%string, post.
    change (String.concat sep (y :: z :: l))
      with (y ++ sep ++ String.concat sep (z :: l))%string.
    by rewrite Heq, !append_assoc.
Qed.

Section Run.
Context `{Format}.

(** A run in which every collaborator answers: the events and status 0. *)
Lemma main_success (w : World) cfg station_id precip_data pressure_data
    forecast pressure_text tr :
  let lat := latitude (location cfg) in
  let lon := longitude (location cfg) in
  let hours := hours_to_check (sprinkler cfg) in
  let verdict :=
    recommendation_of (ps_total_inches precip_data) (threshold (sprinkler cfg)) in
  let email_body :=
    email_body_of cfg station_id precip_data verdict.1 verdict.2
      pressure_text (forecast_text_of forecast)
      (daily_totals_text_of (ps_daily_totals precip_data)) (now_report w) in
  load_config w = inr cfg →
  get_nws_observation_station (points_station w) (stations w) lat lon = inr station_id →
  get_precipitation_data (now_cutoff w) (now_horizon w) (precip_observations w)
    station_id hours = inr precip_data →
  get_pressure_data (now_pressure w) (pressure_observations w) station_id =
    inr pressure_data →
  get_forecast (points_forecast w) (forecast_periods w) lat lon = inr forecast →
  pressure_text_of pressure_data (pressure_threshold_of (sprinkler cfg)) =
    inr pressure_text →
  send_email (smtp w) (email cfg) "Weather update!" email_body = (tr, inr tt) →
  main w =
  ([Printed ("Checking precipitation for last " ++ str_int hours ++ " hours...");
    Printed ("Location: " ++ str_num lat ++ ", " ++ str_num lon);
    Printed ("Using NWS station: " ++ station_id);
    Printed "Fetching barometric pressure data...";
    Printed "Fetching forecast...";
    Printed (nl ++ email_body)] ++ tr ++
   [Printed (nl ++ "Script completed successfully!")], 0).
Proof.
  intros lat lon hours verdict email_body Hcfg Hst Hpd Hpr Hfc Hpt Hsend.
  unfold main, main_try. rewrite Hcfg. cbn [io_lift io_bind print app].
  fold lat lon hours. rewrite Hst. cbn [io_lift io_bind print app].
  rewrite Hpd. cbn [io_lift io_bind print app].
  rewrite Hpr. cbn [io_lift io_bind print app].
  rewrite Hfc. cbn [io_lift io_bind print app].
  fold verdict. destruct verdict as [recommendation emoji] eqn:Ev.
  rewrite Hpt. cbn [io_lift io_bind print app].
  cbn [fst snd] in email_body. fold email_body. rewrite Hsend.
  cbn [io_lift io_bind print app]. done.
Qed.

End Run.

Section Report.
Context `{Format}.

Lemma send_email_sent smtp cfg subject body tr :
  send_email smtp cfg subject body = (tr, inr tt) →
  ∃ msg line, tr = [Sent msg; Printed line]
    ∧ msg_Subject msg = subject ∧ msg_body msg = body.
Proof.
  unfold send_email.
  destruct (to_emails_of cfg) as [e|to_emails];
    cbn [io_lift io_bind]; [done|].
  destruct (getitem cfg "from_email") as [e|from_email];
    cbn [io_lift io_bind]; [done|].
  destruct (join_emails to_emails) as [e|to];
    cbn [io_lift io_bind]; [done|].
  destruct (smtp_session _ _ _) as [e|[]]; cbn [io_raise app]; [done|].
  intros [= <-]. eauto.
Qed.

(** C8. When the forecast request succeeds with an empty period list,
    [get_forecast] returns its "no forecast" value instead of raising; if
    the other collaborators answer, the run ends with status 0, and the
    report that is printed and mailed contains "Forecast unavailable". *)
Theorem empty_forecast_is_unavailable (w : World) cfg station_id precip_data
    pressure_data pressure_text points tr :
  let lat := latitude (location cfg) in
  let lon := longitude (location cfg) in
  let verdict :=
    recommendation_of (ps_total_inches precip_data) (threshold (sprinkler cfg)) in
  let email_body :=
    email_body_of cfg station_id precip_data verdict.1 verdict.2
      pressure_text (forecast_text_of None)
      (daily_totals_text_of (ps_daily_totals precip_data)) (now_report w) in
  points_forecast w = inr points →
  forecast_periods w = inr [] →
  load_config w = inr cfg →
  get_nws_observation_station (points_station w) (stations w) lat lon = inr station_id →
  get_precipitation_data (now_cutoff w) (now_horizon w) (precip_observations w)
    station_id (hours_to_check (sprinkler cfg)) = inr precip_data →
  get_pressure_data (now_pressure w) (pressure_observations w) station_id =
    inr pressure_data →
  pressure_text_of pressure_data (pressure_threshold_of (sprinkler cfg)) =
    inr pressure_text →
  send_email (smtp w) (email cfg) "Weather update!" email_body = (tr, inr tt) →
  get_forecast (points_forecast w) (forecast_periods w) lat lon = inr None
  ∧ forecast_text_of None = "  Forecast unavailable"
  ∧ contains email_body "Forecast unavailable"
  ∧ (main w).2 = 0
  ∧ Printed (nl ++ email_body) ∈ (main w).1
  ∧ ∃ msg, Sent msg ∈ (main w).1 ∧ msg_body msg = email_body.
Proof.
  intros lat lon verdict email_body Hpoints Hperiods Hcfg Hst Hpd Hpr Hpt Hsend.
  assert (Hfc : get_forecast (points_forecast w) (forecast_periods w) lat lon =
                inr None) by (by rewrite Hpoints, Hperiods).
  split; [done|]. split; [done|]. split.
  { unfold email_body, email_body_of.
    match goal with
    | |- contains (String.concat nl ?l) _ =>
        destruct (concat_contains nl l (forecast_text_of None))
          as (pre & post & ->)
    end.
    - cbn [forecast_text_of]. rewrite !elem_of_cons. auto 30.
    - exists (pre ++ "  ")%string, post. cbn [forecast_text_of].
      by rewrite !append_assoc. }
  rewrite (main_success w cfg station_id precip_data pressure_data None
             pressure_text tr Hcfg Hst Hpd Hpr Hfc Hpt Hsend).
  cbn [fst snd]. split; [done|]. split.
  - rewrite !elem_of_app, !elem_of_cons. auto 20.
  - destruct (send_email_sent _ _ _ _ _ Hsend) as (msg & line & -> & _ & Hbody).
    exists msg. split; [|done]. rewrite !elem_of_app, !elem_of_cons. auto 20.
Qed.

End Report.

Lemma empty_forecast_is_unavailable_witness :
  get_forecast (inr example_points) (inr []) (4491 # 100) (-(9326 # 100)) = inr None
  ∧ (main (H := plain_format) world_without_periods).2 = 0.
Proof.
  refine (let H := empty_forecast_is_unavailable (H := plain_format)
            world_without_periods example_config "KXYZ" _ _ _ example_points _
            eq_refl eq_refl eq_refl eq_refl _ _ _ _ in
          conj (proj1 H) (proj1 (proj2 (proj2 (proj2 H))))).
  - reflexivity.
  - reflexivity.
  - reflexivity.
  - lazy. reflexivity.
Defined.

(** ** The recommendation (C3) *)

(** C3. The recommendation is "YES - Run sprinkler" exactly when the
    recent-window inches are below the threshold; at the threshold it is
    "NO - Sufficient rainfall". *)
Theorem run_iff_below_threshold (total_inches threshold : Q) :
  ((recommendation_of total_inches threshold).1 = "YES - Run sprinkler"
     ↔ (total_inches < threshold)%Q)
  ∧ ((recommendation_of total_inches threshold).1 = "NO - Sufficient rainfall"
     ↔ (threshold <= total_inches)%Q)
  ∧ ((total_inches == threshold)%Q →
     recommendation_of total_inches threshold = ("NO - Sufficient rainfall", "✓")).
Proof.
  unfold recommendation_of.
  destruct (Qle_bool threshold total_inches) eqn:E; cbn [fst].
  - apply Qle_bool_iff in E. split; [|split]; [split| |done].
    + done.
    + intros Hlt. by apply Qle_not_lt in E.
    + done.
  - assert (¬ (threshold <= total_inches)%Q) as Hn.
    { intros Hle%Qle_bool_iff. congruence. }
    split; [|split]; [split|split|].
    + intros _. by apply Qnot_le_lt.
    + done.
    + done.
    + done.
    + intros Heq. destruct Hn. rewrite Heq. apply Qle_refl.
Qed.

(** ** The significance of the pressure change (C4) *)




Section Significance.
Context `{Format}.


End Significance.


(** ** Recipients (C9, C10) *)

Lemma to_emails_of_single email_config s :
  single_recipient email_config s →
  to_emails_of email_config = inr (VList [VStr s]).
Proof.
  unfold to_emails_of. by intros [->|[-> ->]].
Qed.

Section Recipients.
Context `{Format}.

(** C9. A single recipient given as a string, as the value of [to_emails]
    or under the legacy key [to_email], becomes a one-element list: the
    message handed to the server is addressed to that one address and the
    run reports one recipient. With neither key, [send_email] raises. *)
Theorem single_recipient_normalized (smtp : Smtp) (email_config : gmap string value)
    (subject body : string) :
  (∀ s, single_recipient email_config s →
     to_emails_of email_config = inr (VList [VStr s])
     ∧ ∀ from_email, email_config !! "from_email" = Some from_email →
         let msg := {| msg_From := from_email; msg_To := s;
                       msg_Subject := subject; msg_body := body |} in
         send_email smtp email_config subject body =
         match smtp_session smtp email_config msg with
         | inr _ =>
             ([Sent msg;
               Printed ("Email sent successfully to " ++ str_int 1
                        ++ " recipient(s): " ++ s)], inr tt)
         | inl e => ([], inl (Exception ("Error sending email: " ++ exn_str e)))
         end)
  ∧ (email_config !! "to_emails" = None → email_config !! "to_email" = None →
     send_email smtp email_config subject body =
     ([], inl (Exception
        "No recipient email configured. Use 'to_emails' (list) or 'to_email' (string) in config"))).
Proof.
  split.
  - intros s Hs. pose proof (to_emails_of_single _ _ Hs) as Hto.
    split; [done|]. intros from_email Hfrom msg.
    unfold send_email, getitem. rewrite Hto, Hfrom.
    cbn [io_lift io_bind join_emails join_strs ret len_emails length Z.of_nat].
    fold msg. by destruct (smtp_session smtp email_config msg).
  - intros H1 H2. unfold send_email, to_emails_of. by rewrite H1, H2.
Qed.


End Recipients.

Lemma single_recipient_normalized_witness :
  single_recipient legacy_email "a@example.org"
  ∧ to_emails_of legacy_email = inr (VList [VStr "a@example.org"])
  ∧ (send_email (H := plain_format) accepting_smtp legacy_email "s" "b").1 =
    [Sent {| msg_From := VStr "weather@example.org"; msg_To := "a@example.org";
             msg_Subject := "s"; msg_body := "b" |};
     Printed "Email sent successfully to # recipient(s): a@example.org"].
Proof.
  assert (Hs : single_recipient legacy_email "a@example.org").
  { right. split; reflexivity. }
  destruct (single_recipient_normalized (H := plain_format) accepting_smtp
              legacy_email "s" "b") as [Hsingle _].
  destruct (Hsingle _ Hs) as [Hto Hsend].
  split; [exact Hs|]. split; [exact Hto|].
  rewrite (Hsend (VStr "weather@example.org") eq_refl). reflexivity.
Defined.


(** * Further properties of the script *)

(** ** get_precipitation_data: edge cases *)




(** ** get_precipitation_data: observations without a value *)

Lemma precip_step_same_totals cutoff o st1 st2 :
  same_totals st1 st2 →
  same_totals (precip_step cutoff o st1) (precip_step cutoff o st2).
Proof.
  intros (Ht & Hc & Hd). unfold same_totals, precip_step.
  destruct (present_value (precipitationLastHour o)); simpl;
    by rewrite ?Ht, ?Hc, ?Hd.
Qed.

Lemma precip_loop_same_totals cutoff seven l st1 st2 :
  same_totals st1 st2 →
  same_totals (precip_loop cutoff seven l st1) (precip_loop cutoff seven l st2).
Proof.
  revert st1 st2. induction l as [|o l IH]; intros st1 st2 Hst; simpl; [done|].
  destruct (utc_us (timestamp o) <? seven); [done|].
  by apply IH, precip_step_same_totals.
Qed.

Lemma precip_step_no_value cutoff o st :
  precip_of o = None → same_totals (precip_step cutoff o st) st.
Proof.
  unfold precip_of, precip_step, same_totals. by intros ->.
Qed.

Lemma precip_loop_skip_no_value cutoff seven pre o post st :
  precip_of o = None → seven <= utc_us (timestamp o) →
  same_totals (precip_loop cutoff seven (pre ++ o :: post) st)
              (precip_loop cutoff seven (pre ++ post) st).
Proof.
  intros Ho Hin. revert st. induction pre as [|p pre IH]; intros st; simpl.
  - destruct (Z.ltb_spec (utc_us (timestamp o)) seven); [lia|].
    by apply precip_loop_same_totals, precip_step_no_value.
  - destruct (utc_us (timestamp p) <? seven); [done|]. apply IH.
Qed.

(** An observation without a precipitation value (key missing, null, or a
    null value) that is not older than the horizon contributes nothing:
    with or without it, at any place of the sequence, the totals, the count
    and the daily totals are the same. *)
Theorem observation_without_value_is_ignored
    (now_cutoff now_horizon hours : Z) (station_id : string)
    (pre post : list Observation) (o : Observation) :
  precip_of o = None →
  now_horizon - timedelta_days 7 <= utc_us (timestamp o) →
  ∃ r1 r2,
    get_precipitation_data now_cutoff now_horizon (inr (pre ++ o :: post))
      station_id hours = inr r1
    ∧ get_precipitation_data now_cutoff now_horizon (inr (pre ++ post))
        station_id hours = inr r2
    ∧ ps_total_mm r1 = ps_total_mm r2
    ∧ ps_total_inches r1 = ps_total_inches r2
    ∧ ps_observation_count r1 = ps_observation_count r2
    ∧ ps_daily_totals r1 = ps_daily_totals r2.
Proof.
  intros Ho Hin. eexists _, _.
  split; [apply get_precipitation_data_ok|].
  split; [apply get_precipitation_data_ok|].
  destruct (precip_loop_skip_no_value (now_cutoff - timedelta_hours hours)
              (now_horizon - timedelta_days 7) pre o post precip_init Ho Hin)
    as (Ht & Hc & Hd).
  cbn [ps_total_mm ps_total_inches ps_observation_count ps_daily_totals].
  by rewrite Ht, Hc, Hd.
Qed.

Lemma observation_without_value_is_ignored_witness :
  ∃ r1 r2,
    get_precipitation_data run_time run_time
      (inr (take 1 overnight_rain ++
            obs_at (run_time - 2 * us_per_hour) None (Some 101325%Q) ::
            drop 1 overnight_rain)) "KXYZ" 12 = inr r1
    ∧ get_precipitation_data run_time run_time
        (inr (take 1 overnight_rain ++ drop 1 overnight_rain)) "KXYZ" 12 = inr r2
    ∧ ps_daily_totals r1 = ps_daily_totals r2.
Proof.
  destruct (observation_without_value_is_ignored run_time run_time 12 "KXYZ"
    (take 1 overnight_rain) (drop 1 overnight_rain)
    (obs_at (run_time - 2 * us_per_hour) None (Some 101325%Q)))
    as (r1 & r2 & H1 & H2 & _ & _ & _ & Hd).
  - reflexivity.
  - vm_compute. discriminate.
  - exists r1, r2. auto.
Defined.

(** ** get_precipitation_data: the shape of the daily totals *)

Lemma strictly_descending_keys (l : list (Z * Q)) :
  StronglySorted date_desc l → NoDup l.*1 →
  StronglySorted (fun a b => a.1 > b.1) l.
Proof.
  induction 1 as [|a l Hl IH Ha]; intros Hnd; [constructor|].
  apply NoDup_cons in Hnd as [Hnotin Hnd].
  constructor; [by apply IH|].
  rewrite Forall_forall in Ha |- *. intros b Hb.
  specialize (Ha b Hb). unfold date_desc in Ha.
  assert (a.1 ≠ b.1).
  { intros Heq. apply Hnotin. rewrite Heq. by apply list_elem_of_fmap_2. }
  lia.
Qed.

(** The returned daily totals are in strictly descending date order: the
    newest date comes first and every date has one entry. *)
Theorem daily_totals_strictly_descending
    (now_cutoff now_horizon hours : Z) (station_id : string)
    (observations : list Observation) :
  ∃ r, get_precipitation_data now_cutoff now_horizon (inr observations)
         station_id hours = inr r
    ∧ StronglySorted (fun a b => a.1 > b.1) (ps_daily_totals r)
    ∧ NoDup (ps_daily_totals r).*1.
Proof.
  eexists. split; [apply get_precipitation_data_ok|].
  cbn [ps_daily_totals]. unfold daily_totals_inches_of.
  set (daily := daily_totals _).
  assert (Hnd : NoDup (merge_sort date_desc (map_to_list daily)).*1).
  { rewrite merge_sort_Permutation. apply NoDup_fst_map_to_list. }
  assert (Hs : StronglySorted (fun a b => a.1 > b.1)
                 (merge_sort date_desc (map_to_list daily))).
  { apply strictly_descending_keys; [|done].
    apply StronglySorted_merge_sort.
    - intros [a ?] [b ?] [c ?]. unfold date_desc. simpl. lia.
    - intros [a ?] [b ?]. unfold date_desc. simpl. lia. }
  split.
  - by apply (StronglySorted_fmap _ (fun a b : Z * Q => a.1 > b.1)
                (fun a b : Z * Q => a.1 > b.1)).
  - by rewrite <- list_fmap_compose.
Qed.

(** ** get_precipitation_data: the window and the horizon *)

Lemma precip_step_daily_indep c1 c2 o st1 st2 :
  daily_totals st1 = daily_totals st2 →
  latest_observation st1 = latest_observation st2 →
  daily_totals (precip_step c1 o st1) = daily_totals (precip_step c2 o st2)
  ∧ latest_observation (precip_step c1 o st1) =
    latest_observation (precip_step c2 o st2).
Proof.
  intros Hd Hl. unfold precip_step.
  destruct (present_value (precipitationLastHour o)); simpl; by rewrite Hd, Hl.
Qed.

Lemma precip_loop_daily_indep c1 c2 seven l st1 st2 :
  daily_totals st1 = daily_totals st2 →
  latest_observation st1 = latest_observation st2 →
  daily_totals (precip_loop c1 seven l st1) = daily_totals (precip_loop c2 seven l st2)
  ∧ latest_observation (precip_loop c1 seven l st1) =
    latest_observation (precip_loop c2 seven l st2).
Proof.
  revert st1 st2. induction l as [|o l IH]; intros st1 st2 Hd Hl; simpl; [done|].
  destruct (utc_us (timestamp o) <? seven); [done|].
  destruct (precip_step_daily_indep c1 c2 o st1 st2 Hd Hl). by apply IH.
Qed.

(** The daily totals and the latest observation do not depend on the
    hours-to-check window: they are the same for every [hours] and every
    reading of the clock used for the cutoff. *)
Theorem daily_totals_independent_of_window
    (now_cutoff1 now_cutoff2 now_horizon hours1 hours2 : Z) (station_id : string)
    (observations : list Observation) :
  ∃ r1 r2,
    get_precipitation_data now_cutoff1 now_horizon (inr observations)
      station_id hours1 = inr r1
    ∧ get_precipitation_data now_cutoff2 now_horizon (inr observations)
        station_id hours2 = inr r2
    ∧ ps_daily_totals r1 = ps_daily_totals r2
    ∧ ps_latest_observation r1 = ps_latest_observation r2.
Proof.
  eexists _, _.
  split; [apply get_precipitation_data_ok|].
  split; [apply get_precipitation_data_ok|].
  cbn [ps_daily_totals ps_latest_observation].
  destruct (precip_loop_daily_indep (now_cutoff1 - timedelta_hours hours1)
              (now_cutoff2 - timedelta_hours hours2)
              (now_horizon - timedelta_days 7) observations
              precip_init precip_init eq_refl eq_refl) as [-> ->].
  done.
Qed.

Lemma filter_in_window_length c1 c2 (l : list Observation) :
  c2 <= c1 →
  (length (filter (in_window c1) l) <= length (filter (in_window c2) l))%nat.
Proof.
  intros Hc. induction l as [|o l IH]; [done|].
  rewrite !filter_cons.
  destruct (decide (in_window c1 o)) as [H1|H1].
  - rewrite decide_True; [simpl; lia|].
    apply in_window_spec in H1 as [? ?]. apply in_window_spec. split; [done|lia].
  - destruct (decide (in_window c2 o)); simpl; lia.
Qed.

(** The number of counted observations is between 0 and the number of
    observations received, and a longer window (same clock) never counts
    fewer observations than a shorter one. *)
Theorem observation_count_bounded_and_monotone
    (now_cutoff now_horizon hours1 hours2 : Z) (station_id : string)
    (observations : list Observation) :
  hours1 <= hours2 →
  ∃ r1 r2,
    get_precipitation_data now_cutoff now_horizon (inr observations)
      station_id hours1 = inr r1
    ∧ get_precipitation_data now_cutoff now_horizon (inr observations)
        station_id hours2 = inr r2
    ∧ 0 <= ps_observation_count r1
    ∧ ps_observation_count r1 <= ps_observation_count r2
    ∧ ps_observation_count r2 <= Z.of_nat (length observations).
Proof.
  intros Hh. eexists _, _.
  split; [apply get_precipitation_data_ok|].
  split; [apply get_precipitation_data_ok|].
  cbn [ps_observation_count]. rewrite !precip_loop_consumed, !fold_count.
  cbn [observation_count precip_init].
  set (read := consumed _ observations).
  pose proof (filter_in_window_length (now_cutoff - timedelta_hours hours1)
                (now_cutoff - timedelta_hours hours2) read) as Hlen.
  assert (now_cutoff - timedelta_hours hours2 <= now_cutoff - timedelta_hours hours1)
    as Hc by (unfold timedelta_hours, us_per_hour, us_per_second; lia).
  specialize (Hlen Hc).
  pose proof (sublist_length _ _
    (sublist_filter (in_window (now_cutoff - timedelta_hours hours2)) read)) as H2.
  pose proof (sublist_length _ _
    (consumed_sublist (now_horizon - timedelta_days 7) observations)) as H3.
  fold read in H3. lia.
Qed.

Lemma observation_count_bounded_and_monotone_witness :
  ∃ r1 r2,
    get_precipitation_data run_time run_time (inr overnight_rain) "KXYZ" 2 = inr r1
    ∧ get_precipitation_data run_time run_time (inr overnight_rain) "KXYZ" 12 = inr r2
    ∧ ps_observation_count r1 = 1 ∧ ps_observation_count r2 = 2.
Proof.
  destruct (observation_count_bounded_and_monotone run_time run_time 2 12 "KXYZ"
              overnight_rain) as (r1 & r2 & H1 & H2 & _); [lia|].
  exists r1, r2. split; [done|]. split; [done|].
  vm_compute in H1, H2. injection H1 as <-. injection H2 as <-. done.
Defined.

(** Before conversion and rounding, the day buckets add up to the
    precipitation of all the observations read within the horizon: every
    value read goes to exactly one date. *)
Theorem buckets_sum_to_precipitation_read (cutoff_time seven_days_ago : Z)
    (observations : list Observation) :
  (sum_buckets (daily_totals
     (precip_loop cutoff_time seven_days_ago observations precip_init)) ==
   sum_precip (consumed seven_days_ago observations))%Q.
Proof.
  rewrite precip_loop_consumed, sum_buckets_fold.
  unfold sum_buckets. cbn [daily_totals precip_init].
  rewrite map_to_list_empty. cbn [sum_values foldr]. ring.
Qed.

(** ** get_precipitation_data: signs *)

Lemma round_half_even_nonneg x : (0 <= x)%Q → 0 <= round_half_even x.
Proof.
  intros Hx. unfold round_half_even.
  assert (0 <= Qfloor x).
  { change 0 with (Qfloor 0). by apply Qfloor_resp_le. }
  destruct (_ ?= _)%Q; [destruct (Z.even _)|..]; lia.
Qed.

Lemma round_nonneg x n : (0 <= x)%Q → (0 <= round x n)%Q.
Proof.
  intros Hx. unfold round.
  set (k := 10 ^ Z.of_nat n).
  assert (0 < k) by (apply Z.pow_pos_nonneg; lia).
  assert (0 < inject_Z k)%Q.
  { change 0%Q with (inject_Z 0). by rewrite <- Zlt_Qlt. }
  apply Qle_shift_div_l; [done|]. rewrite Qmult_0_l.
  change 0%Q with (inject_Z 0). rewrite <- Zle_Qle.
  apply round_half_even_nonneg.
  apply Qmult_le_0_compat; [done|]. by apply Qlt_le_weak.
Qed.

Lemma sum_precip_nonneg l : nonneg_precip l → (0 <= sum_precip l)%Q.
Proof.
  intros Hnn. change 0%Q with (sum_precip []).
  apply sum_precip_sublist; [apply sublist_nil_l|done].
Qed.

(** When no precipitation value received is negative, nothing returned is:
    the totals in millimetres and inches and every daily total are at
    least 0. *)
Theorem nonnegative_precipitation_out
    (now_cutoff now_horizon hours : Z) (station_id : string)
    (observations : list Observation) :
  nonneg_precip observations →
  ∃ r, get_precipitation_data now_cutoff now_horizon (inr observations)
         station_id hours = inr r
    ∧ (0 <= ps_total_mm r)%Q ∧ (0 <= ps_total_inches r)%Q
    ∧ (∀ d inches, (d, inches) ∈ ps_daily_totals r → 0 <= inches)%Q.
Proof.
  intros Hnn. eexists. split; [apply get_precipitation_data_ok|].
  cbn [ps_total_mm ps_total_inches ps_daily_totals].
  set (cutoff := now_cutoff - timedelta_hours hours).
  set (seven := now_horizon - timedelta_days 7).
  set (read := consumed seven observations).
  assert (Hread : nonneg_precip read).
  { eapply nonneg_precip_sublist; [apply consumed_sublist|done]. }
  assert (Hdiv : ∀ x, (0 <= x → 0 <= x / mm_per_inch)%Q).
  { intros x Hx. apply Qle_shift_div_l; [done|]. by rewrite Qmult_0_l. }
  assert (Hw : ∀ (P : Observation → Prop) `{!∀ o, Decision (P o)},
             (0 <= sum_precip (filter P read))%Q).
  { intros P ?. apply sum_precip_nonneg.
    eapply nonneg_precip_sublist; [apply sublist_filter|done]. }
  assert (Ht : (0 <= total_precip_mm (precip_loop cutoff seven observations
                                        precip_init))%Q).
  { eapply Qle_trans; [apply (Hw (in_window cutoff) _)|].
    apply Qle_lteq. right. symmetry. apply precip_loop_total. }
  split; [|split].
  - by apply round_nonneg.
  - by apply round_nonneg, Hdiv.
  - intros d inches (mm & Hmm & ->)%daily_totals_inches_elem.
    apply round_nonneg, Hdiv.
    eapply Qle_trans; [apply (Hw (on_day d) _)|].
    apply Qle_lteq. right. symmetry.
    etransitivity; [|apply (precip_loop_bucket cutoff seven observations d)].
    unfold bucket. by rewrite Hmm.
Qed.

Lemma nonnegative_precipitation_out_witness :
  nonneg_precip overnight_rain
  ∧ ∃ r, get_precipitation_data run_time run_time (inr overnight_rain) "KXYZ" 12 = inr r
      ∧ (0 <= ps_total_inches r)%Q.
Proof.
  assert (Hnn : nonneg_precip overnight_rain).
  { repeat constructor; intros v [= <-]; vm_compute; discriminate. }
  split; [exact Hnn|].
  destruct (nonnegative_precipitation_out run_time run_time 12 "KXYZ"
              overnight_rain Hnn) as (r & Hr & _ & Hi & _).
  exists r. auto.
Defined.

(** ** get_pressure_data: the current reading *)

Lemma pressure_step_current yesterday o st :
  current (pressure_step yesterday o st) =
  match current st with
  | Some c => Some c
  | None => (fun pa => ((pa / 100)%Q, timestamp o)) <$> pressure_of o
  end.
Proof.
  unfold pressure_step, pressure_of.
  destruct (present_value (barometricPressure o)); simpl;
    by destruct (current st).
Qed.

Lemma first_reading_cons o l :
  first_reading (o :: l) =
  match pressure_of o with
  | Some pa => Some ((pa / 100)%Q, timestamp o)
  | None => first_reading l
  end.
Proof.
  unfold first_reading. change (omap ?f (o :: l))
    with (match f o with Some y => y :: omap f l | None => omap f l end).
  cbv beta. by destruct (pressure_of o).
Qed.

Lemma pressure_loop_current yesterday l st :
  current (pressure_loop yesterday l st) =
  match current st with
  | Some c => Some c
  | None => first_reading l
  end.
Proof.
  unfold pressure_loop. revert st.
  induction l as [|o l IH]; intros st; cbn [foldl].
  - by destruct (current st).
  - rewrite IH, pressure_step_current, first_reading_cons.
    destruct (current st); [done|]. by destruct (pressure_of o).
Qed.

Lemma first_reading_none l :
  Forall (fun o => pressure_of o = None) l → first_reading l = None.
Proof.
  induction 1 as [|o l Ho _ IH]; [done|].
  by rewrite first_reading_cons, Ho.
Qed.

(** The current reading is that of the first observation of the sequence
    that carries a pressure value, however old it is; when no observation
    carries one, every field of the summary is absent. *)
Theorem current_reading_is_first_with_pressure (now : Z) (station_id : string)
    (observations : list Observation) :
  ∃ r, get_pressure_data now (inr observations) station_id = inr r
    ∧ current_time r = snd <$> first_reading observations
    ∧ current_pressure r = round1_if (fst <$> first_reading observations)
    ∧ (Forall (fun o => pressure_of o = None) observations →
       r = {| current_pressure := None; yesterday_pressure := None;
              pressure_change := None; current_time := None;
              yesterday_time := None |}).
Proof.
  eexists. split; [apply get_pressure_data_ok|].
  cbn [current_time current_pressure].
  rewrite pressure_loop_current. cbn [current pressure_init].
  split; [done|]. split; [done|].
  intros Hnone. rewrite (first_reading_none _ Hnone).
  pose proof (pressure_loop_pick (now - timedelta_days 1) observations) as Hpick.
  destruct (yesterday_pick _) as [[p t]|]; [|done].
  destruct Hpick as [(o & pa & Hin & Hpa & _) _].
  rewrite Forall_forall in Hnone. specialize (Hnone o Hin). congruence.
Qed.

Lemma current_reading_is_first_with_pressure_witness :
  ∃ r, get_pressure_data run_time
         (inr [obs_at (run_time - 1 * us_per_hour) (Some (254 # 100)) None;
               obs_at (run_time - 2 * us_per_hour) None None]) "KXYZ" = inr r
    ∧ current_pressure r = None ∧ yesterday_time r = None.
Proof.
  destruct (current_reading_is_first_with_pressure run_time "KXYZ"
    [obs_at (run_time - 1 * us_per_hour) (Some (254 # 100)) None;
     obs_at (run_time - 2 * us_per_hour) None None]) as (r & Hr & _ & _ & Hnone).
  exists r. split; [done|]. rewrite Hnone; [done|].
  by repeat constructor.
Defined.

(** ** get_pressure_data: equally near candidates *)




(** ** get_pressure_data and the report *)

Lemma round1_if_truthy x : truthy_opt x = true → ∃ v, x = Some v ∧ round1_if x = Some (round v 1).
Proof.
  destruct x as [v|]; [|done]. simpl. intros Hv. exists v. by rewrite Hv.
Qed.

Lemma round1_if_Some x y : round1_if x = Some y → truthy_opt x = true.
Proof.
  destruct x as [v|]; [|done]. simpl. by destruct (truthy v).
Qed.

Lemma get_pressure_data_consistent now observations station_id :
  ∃ r, get_pressure_data now (inr observations) station_id = inr r
    ∧ (is_Some (pressure_change r) →
       is_Some (current_pressure r) ∧ is_Some (yesterday_pressure r)
       ∧ is_Some (current_time r) ∧ is_Some (yesterday_time r)).
Proof.
  eexists. split; [apply get_pressure_data_ok|].
  cbn [current_pressure pressure_change yesterday_pressure current_time
       yesterday_time].
  set (st := pressure_loop (now - timedelta_days 1) observations pressure_init).
  intros [ch Hch]. apply round1_if_Some in Hch.
  destruct (truthy_opt (fst <$> current st)) eqn:Hc; [|done].
  destruct (truthy_opt (fst <$> yesterday_pick st)) eqn:Hy; [|done].
  destruct (round1_if_truthy _ Hc) as (c & Hcs & ->).
  destruct (round1_if_truthy _ Hy) as (y & Hys & ->).
  destruct (current st), (yesterday_pick st); done.
Qed.

Section PressureReport.
Context `{Format}.

Lemma pressure_text_of_total (pressure_data : PressureSummary) (thr : Q) :
  (is_Some (pressure_change pressure_data) →
   is_Some (yesterday_pressure pressure_data)) →
  ∃ text, pressure_text_of pressure_data thr = inr text
    ∧ (pressure_change pressure_data = None → text = "  Data unavailable").
Proof.
  intros Hy. unfold pressure_text_of.
  destruct (current_pressure pressure_data) as [c|]; cbn [truthy_opt].
  - destruct (truthy c).
    + destruct (pressure_change pressure_data) as [ch|].
      * destruct Hy as [y ->]; [by eexists|].
        destruct (pressure_marks ch thr) as [sig trend].
        cbn [fmt_1f_opt bind ret]. eexists. split; [done|]. done.
      * eexists. split; done.
    + eexists. split; done.
  - eexists. split; done.
Qed.

(** A summary returned by [get_pressure_data] that has a change also has
    both readings and both times; formatting the pressure block of the
    report from such a summary never raises, and the block is the
    placeholder whenever the change is absent. *)
Theorem pressure_block_never_raises (now : Z) (station_id : string)
    (observations : list Observation) (pressure_threshold : Q) :
  ∃ r text,
    get_pressure_data now (inr observations) station_id = inr r
    ∧ pressure_text_of r pressure_threshold = inr text
    ∧ (pressure_change r = None → text = "  Data unavailable")
    ∧ (is_Some (pressure_change r) →
       is_Some (current_pressure r) ∧ is_Some (yesterday_pressure r)
       ∧ is_Some (current_time r) ∧ is_Some (yesterday_time r)).
Proof.
  destruct (get_pressure_data_consistent now observations station_id)
    as (r & Hr & Hcons).
  destruct (pressure_text_of_total r pressure_threshold) as (text & Ht & Hnone).
  { intros Hch. by destruct (Hcons Hch) as (_ & ? & _). }
  exists r, text. auto.
Qed.

End PressureReport.

(** ** The fetchers: transport errors *)

(** No fetcher lets a [RequestException] out: a transport error of any of
    its requests comes out as an [Exception] whose message starts with the
    fetcher's own prefix and ends with the transport's message. *)
Theorem transport_errors_are_wrapped (s : string) :
  (∀ points stations lat lon,
     get_nws_observation_station points stations lat lon ≠ inl (RequestException s)
     ∧ get_nws_observation_station (inl (RequestException s)) stations lat lon =
       inl (Exception ("Error fetching NWS station: " ++ s))
     ∧ ∀ data, get_nws_observation_station (inr data) (inl (RequestException s)) lat lon =
       inl (Exception ("Error fetching NWS station: " ++ s)))
  ∧ (∀ now_cutoff now_horizon response station_id hours,
     get_precipitation_data now_cutoff now_horizon response station_id hours
       ≠ inl (RequestException s)
     ∧ get_precipitation_data now_cutoff now_horizon (inl (RequestException s))
         station_id hours =
       inl (Exception ("Error fetching precipitation data: " ++ s)))
  ∧ (∀ now response station_id,
     get_pressure_data now response station_id ≠ inl (RequestException s)
     ∧ get_pressure_data now (inl (RequestException s)) station_id =
       inl (Exception ("Error fetching pressure data: " ++ s)))
  ∧ (∀ points forecast_response lat lon,
     get_forecast points forecast_response lat lon ≠ inl (RequestException s)
     ∧ get_forecast (inl (RequestException s)) forecast_response lat lon =
       inl (Exception ("Error fetching forecast: " ++ s))
     ∧ ∀ data, get_forecast (inr data) (inl (RequestException s)) lat lon =
       inl (Exception ("Error fetching forecast: " ++ s))).
Proof.
  split; [|split; [|split]].
  - intros points stations lat lon. split; [|done].
    unfold get_nws_observation_station.
    destruct points as [[]|]; try done.
    destruct stations as [[]|[|??]]; done.
  - intros now_cutoff now_horizon response station_id hours. split; [|done].
    unfold get_precipitation_data. by destruct response as [[]|].
  - intros now response station_id. split; [|done].
    unfold get_pressure_data. by destruct response as [[]|].
  - intros points forecast_response lat lon. split; [|done].
    unfold get_forecast.
    destruct points as [[]|]; try done.
    destruct forecast_response as [[]|[|??]]; done.
Qed.

(** ** send_email: recipients *)

Lemma join_strs_strings sep (l : list string) :
  join_strs sep (VStr <$> l) = inr (String.concat sep l).
Proof.
  induction l as [|s l IH]; [done|].
  destruct l as [|s' l]; [done|].
  change (join_strs sep (VStr <$> s :: s' :: l))
    with (bind (join_strs sep (VStr <$> s' :: l))
            (fun r => ret (s ++ sep ++ r)%string)).
  by rewrite IH.
Qed.


Section Sending.
Context `{Format}.


(** For a list of string recipients the [To] header is the addresses
    joined with ", " and the run reports their number; the legacy key, if
    any, plays no part. *)
Theorem recipients_are_joined (smtp : Smtp) (cfg : gmap string value)
    (subject body : string) (l : list string) (from_email : value) :
  cfg !! "to_emails" = Some (VList (VStr <$> l)) →
  cfg !! "from_email" = Some from_email →
  let msg := {| msg_From := from_email; msg_To := String.concat ", " l;
                msg_Subject := subject; msg_body := body |} in
  send_email smtp cfg subject body =
  match smtp_session smtp cfg msg with
  | inr _ =>
      ([Sent msg;
        Printed ("Email sent successfully to " ++ str_int (Z.of_nat (length l))
                 ++ " recipient(s): " ++ String.concat ", " l)], inr tt)
  | inl e => ([], inl (Exception ("Error sending email: " ++ exn_str e)))
  end.
Proof.
  intros Hto Hfrom msg. unfold send_email, to_emails_of, getitem.
  rewrite Hto, Hfrom. cbn [io_lift io_bind ret join_emails len_emails].
  rewrite join_strs_strings, length_fmap. cbn [io_bind]. fold msg.
  by destruct (smtp_session smtp cfg msg).
Qed.



(** Missing keys. Without [from_email] the raw [KeyError] comes out, before
    the server is contacted; without [smtp_host] the server is not contacted
    either, and the [KeyError] comes out wrapped as a send error. *)
Theorem missing_email_keys (smtp : Smtp) (cfg : gmap string value)
    (subject body : string) (l : list string) :
  cfg !! "to_emails" = Some (VList (VStr <$> l)) →
  (cfg !! "from_email" = None →
   send_email smtp cfg subject body = ([], inl (KeyError "from_email")))
  ∧ (is_Some (cfg !! "from_email") → cfg !! "smtp_host" = None →
     send_email smtp cfg subject body =
     ([], inl (Exception "Error sending email: 'smtp_host'"))).
Proof.
  intros Hto. split.
  - intros Hfrom. unfold send_email, to_emails_of, getitem.
    by rewrite Hto, Hfrom.
  - intros [from_email Hfrom] Hhost.
    unfold send_email, to_emails_of, smtp_session, getitem.
    rewrite Hto, Hfrom, Hhost. cbn [io_lift io_bind ret join_emails].
    by rewrite join_strs_strings.
Qed.

End Sending.

(** ** main: messages and exit status *)





Section Messages.
Context `{Format}.




(** Without a configuration file the run contacts nobody: it prints the
    error, fails to mail it, and ends with status 1, whatever the weather
    service and the SMTP server would have answered. *)
Theorem missing_config_aborts_quietly (w : World) (e : exn) :
  load_config w = inl e →
  main w =
  ([Printed ("Error: " ++ exn_str e);
    Printed "Failed to send error notification email"], 1).
Proof.
  intros Hcfg. unfold main, main_try, main_except. by rewrite Hcfg.
Qed.

(** When the station cannot be resolved the run stops there: the
    observations and the forecast play no part, the status is 1, and the one
    mail attempted is the error mail whose body is "Error: " followed by the
    station error. *)
Theorem station_failure_aborts (w : World) (cfg : Config) (e : exn) :
  load_config w = inr cfg →
  get_nws_observation_station (points_station w) (stations w)
    (latitude (location cfg)) (longitude (location cfg)) = inl e →
  let error_msg := ("Error: " ++ exn_str e)%string in
  main w =
  ([Printed ("Checking precipitation for last "
             ++ str_int (hours_to_check (sprinkler cfg)) ++ " hours...");
    Printed ("Location: " ++ str_num (latitude (location cfg)) ++ ", "
             ++ str_num (longitude (location cfg)));
    Printed error_msg] ++
   match send_email (smtp w) (email cfg) "Weather update - ERROR" error_msg with
   | (tr, inr _) => tr
   | (tr, inl _) => tr ++ [Printed "Failed to send error notification email"]
   end, 1).
Proof.
  intros Hcfg Hst error_msg. unfold main, main_try, main_except.
  rewrite Hcfg. cbn [io_lift io_bind print app]. rewrite Hst.
  cbn [io_lift io_bind print app]. fold error_msg.
  by destruct (send_email _ _ _ error_msg) as [tr [?|?]].
Qed.

End Messages.

Lemma recipients_are_joined_witness :
  (send_email (H := plain_format) accepting_smtp example_email "s" "b").1 =
  [Sent {| msg_From := VStr "weather@example.org";
           msg_To := "a@example.org, b@example.org";
           msg_Subject := "s"; msg_body := "b" |};
   Printed "Email sent successfully to # recipient(s): a@example.org, b@example.org"].
Proof.
  rewrite (recipients_are_joined (H := plain_format) accepting_smtp example_email
             "s" "b" ["a@example.org"; "b@example.org"]
             (VStr "weather@example.org") eq_refl eq_refl).
  reflexivity.
Defined.


Lemma missing_email_keys_witness :
  send_email (H := plain_format) accepting_smtp no_sender_email "s" "b" =
    ([], inl (KeyError "from_email"))
  ∧ send_email (H := plain_format) accepting_smtp no_host_email "s" "b" =
    ([], inl (Exception "Error sending email: 'smtp_host'")).
Proof.
  split.
  - apply (missing_email_keys (H := plain_format) accepting_smtp no_sender_email
             "s" "b" ["a@example.org"; "b@example.org"] eq_refl).
    reflexivity.
  - apply (missing_email_keys (H := plain_format) accepting_smtp no_host_email
             "s" "b" ["a@example.org"; "b@example.org"] eq_refl).
    + by eexists.
    + reflexivity.
Defined.

Lemma missing_config_aborts_quietly_witness :
  main (H := plain_format) world_without_config =
  ([Printed "Error: Configuration file not found";
    Printed "Failed to send error notification email"], 1).
Proof.
  apply (missing_config_aborts_quietly (H := plain_format) world_without_config
           (FileNotFoundError "Configuration file not found") eq_refl).
Defined.

Lemma station_failure_aborts_witness :
  (main (H := plain_format) world_without_station).2 = 1
  ∧ sent_messages (main (H := plain_format) world_without_station).1 =
    [{| msg_From := VStr "weather@example.org";
        msg_To := "a@example.org, b@example.org";
        msg_Subject := "Weather update - ERROR";
        msg_body := "Error: Error fetching NWS station: timed out" |}].
Proof.
  rewrite (station_failure_aborts (H := plain_format) world_without_station
             example_config (Exception "Error fetching NWS station: timed out")
             eq_refl eq_refl).
  split; reflexivity.
Defined.

(** ** A dry window *)




(** ** main: a failing send *)

Section FailingSend.
Context `{Format}.



End FailingSend.

